(** * Mergington High School activities API: the store and its three handlers

    A shallow embedding of [src/app.py]: the two SQLite tables, the
    connection with its implicit transaction, the SQL statements the handlers
    execute, and the handlers themselves ([init_db], [fetch_activities],
    [signup_for_activity], [unregister_from_activity]). *)

From Stdlib Require Import ZArith String Ascii.
From stdpp Require Import gmap strings list fin_maps sorting.

Local Open Scope Z_scope.

(** ** Text ordering

    SQLite's default collation (BINARY) compares TEXT values byte by byte,
    a proper prefix being smaller; this is [String.compare] on the UTF-8
    bytes of the value. *)

Definition text_le (s t : string) : Prop := String.leb s t = true.

#[global] Instance text_le_dec : RelDecision text_le.
Proof. intros s t. unfold text_le. apply _. Defined.

(** ** Data model *)

(** A row of table [activities], without its primary key [name]. *)
Record activity_row := {
  col_description : string;
  col_schedule : string;
  col_max_participants : Z
}.

(** The value stored under an activity name, in [INITIAL_ACTIVITIES] and in
    the dictionary [fetch_activities] returns. *)
Record activity_details := {
  description : string;
  schedule : string;
  max_participants : Z;
  participants : list string
}.

(** The database file: each table is absent until its [CREATE TABLE] ran.
    [activities] is keyed by its primary key [name]; [registrations] is the
    set of its rows, the whole row [(activity_name, email)] being the
    primary key. *)
Record database := {
  activities : option (gmap string activity_row);
  registrations : option (gset (string * string))
}.

(** The content of a database whose schema exists. *)
Record store := {
  activity_rows : gmap string activity_row;
  registration_rows : gset (string * string)
}.

Definition db_of (s : store) : database :=
  {| activities := Some (activity_rows s);
     registrations := Some (registration_rows s) |}.

(** The database file right after its creation by [sqlite3.connect]. *)
Definition fresh_db : database :=
  {| activities := None; registrations := None |}.

(** ** Exceptions and outcomes *)

Inductive exn :=
  | HTTPException (status_code : Z) (detail : string)
  | OperationalError (msg : string)
  | IntegrityError (msg : string).

Inductive outcome (A : Type) :=
  | Return (a : A)
  | Raise (e : exn).
Arguments Return {A} a.
Arguments Raise {A} e.

(** ** Python dictionaries: insertion-ordered, assignment to a key that is
    present replaces the value where it stands. *)

Fixpoint dict_set {V} (k : string) (v : V) (d : list (string * V))
  : list (string * V) :=
  match d with
  | [] => [(k, v)]
  | (k', v') :: d' =>
      if decide (k' = k) then (k, v) :: d' else (k', v') :: dict_set k v d'
  end.

(** Python's [d[k]] on the dictionary model. *)
Fixpoint dict_get {V} (k : string) (d : list (string * V)) : option V :=
  match d with
  | [] => None
  | (k', v) :: d' => if decide (k' = k) then Some v else dict_get k d'
  end.

(** ** The seed *)

Local Open Scope string_scope.
Local Open Scope list_scope.

Definition INITIAL_ACTIVITIES : list (string * activity_details) := [
  ("Chess Club",
   {| description := "Learn strategies and compete in chess tournaments";
      schedule := "Fridays, 3:30 PM - 5:00 PM";
      max_participants := 12;
      participants := ["michael@mergington.edu"; "daniel@mergington.edu"] |});
  ("Programming Class",
   {| description := "Learn programming fundamentals and build software projects";
      schedule := "Tuesdays and Thursdays, 3:30 PM - 4:30 PM";
      max_participants := 20;
      participants := ["emma@mergington.edu"; "sophia@mergington.edu"] |});
  ("Gym Class",
   {| description := "Physical education and sports activities";
      schedule := "Mondays, Wednesdays, Fridays, 2:00 PM - 3:00 PM";
      max_participants := 30;
      participants := ["john@mergington.edu"; "olivia@mergington.edu"] |});
  ("Soccer Team",
   {| description := "Join the school soccer team and compete in matches";
      schedule := "Tuesdays and Thursdays, 4:00 PM - 5:30 PM";
      max_participants := 22;
      participants := ["liam@mergington.edu"; "noah@mergington.edu"] |});
  ("Basketball Team",
   {| description := "Practice and play basketball with the school team";
      schedule := "Wednesdays and Fridays, 3:30 PM - 5:00 PM";
      max_participants := 15;
      participants := ["ava@mergington.edu"; "mia@mergington.edu"] |});
  ("Art Club",
   {| description := "Explore your creativity through painting and drawing";
      schedule := "Thursdays, 3:30 PM - 5:00 PM";
      max_participants := 15;
      participants := ["amelia@mergington.edu"; "harper@mergington.edu"] |});
  ("Drama Club",
   {| description := "Act, direct, and produce plays and performances";
      schedule := "Mondays and Wednesdays, 4:00 PM - 5:30 PM";
      max_participants := 20;
      participants := ["ella@mergington.edu"; "scarlett@mergington.edu"] |});
  ("Math Club",
   {| description := "Solve challenging problems and participate in math competitions";
      schedule := "Tuesdays, 3:30 PM - 4:30 PM";
      max_participants := 10;
      participants := ["james@mergington.edu"; "benjamin@mergington.edu"] |});
  ("Debate Team",
   {| description := "Develop public speaking and argumentation skills";
      schedule := "Fridays, 4:00 PM - 5:30 PM";
      max_participants := 12;
      participants := ["charlotte@mergington.edu"; "henry@mergington.edu"] |})
].

(** ** The connection

    [sqlite3.connect] in its default (legacy) transaction mode: a data
    modification statement opens a transaction when none is open; a schema
    statement outside a transaction is committed at once.  Used as a context
    manager the connection commits when the block returns and rolls back
    when it raises. *)

Record connection := {
  disk : database;            (* what is committed *)
  txn : option database       (* the open transaction's view, if any *)
}.

Definition current (c : connection) : database := default (disk c) (txn c).

Definition sql (A : Type) : Type := connection → outcome A * connection.

#[global] Instance sql_ret : MRet sql := λ A a c, (Return a, c).

#[global] Instance sql_bind : MBind sql := λ A B k m c,
  match m c with
  | (Return a, c') => k a c'
  | (Raise e, c') => (Raise e, c')
  end.

Definition raise {A} (e : exn) : sql A := λ c, (Raise e, c).

(** [connection.execute] of a SELECT. *)
Definition execute_query {A} (q : database → outcome A) : sql A :=
  λ c, (q (current c), c).

(** [connection.execute] of an INSERT or DELETE; the result is [rowcount]. *)
Definition execute_update (stmt : database → outcome (database * Z)) : sql Z :=
  λ c, match stmt (current c) with
       | Return (db', n) => (Return n, {| disk := disk c; txn := Some db' |})
       | Raise e => (Raise e, {| disk := disk c; txn := Some (current c) |})
       end.

(** [connection.execute] of a CREATE TABLE. *)
Definition execute_schema (stmt : database → database) : sql unit :=
  λ c, match txn c with
       | None => (Return (), {| disk := stmt (disk c); txn := None |})
       | Some w => (Return (), {| disk := disk c; txn := Some (stmt w) |})
       end.

(** [with get_connection() as connection: body]. *)
Definition with_connection {A} (body : sql A) (db : database)
  : outcome A * database :=
  match body {| disk := db; txn := None |} with
  | (Return a, c) => (Return a, current c)
  | (Raise e, c) => (Raise e, disk c)
  end.

(** [for x in xs: body x]. *)
Fixpoint for_each {A} (xs : list A) (body : A → sql unit) : sql unit :=
  match xs with
  | [] => mret ()
  | x :: xs' => body x ;; for_each xs' body
  end.

(** A loop that updates a local variable [acc]. *)
Fixpoint for_fold {A B} (xs : list A) (acc : B) (body : B → A → sql B) : sql B :=
  match xs with
  | [] => mret acc
  | x :: xs' => acc' ← body acc x; for_fold xs' acc' body
  end.

(** ** The SQL statements *)

Definition no_such_table {A} (t : string) : outcome A :=
  Raise (OperationalError ("no such table: " +:+ t)).

(** [CREATE TABLE IF NOT EXISTS activities (...)] *)
Definition create_activities (db : database) : database :=
  {| activities := Some (default ∅ (activities db));
     registrations := registrations db |}.

(** [CREATE TABLE IF NOT EXISTS registrations (...)] *)
Definition create_registrations (db : database) : database :=
  {| activities := activities db;
     registrations := Some (default ∅ (registrations db)) |}.

(** [SELECT COUNT( * ) AS count FROM activities] *)
Definition count_activities (db : database) : outcome Z :=
  match activities db with
  | None => no_such_table "activities"
  | Some t => Return (Z.of_nat (size t))
  end.

(** [INSERT INTO activities (name, description, schedule, max_participants)
    VALUES (?, ?, ?, ?)], with [CHECK(max_participants > 0)] and the primary
    key on [name]. *)
Definition insert_activity (name : string) (r : activity_row) (db : database)
  : outcome (database * Z) :=
  match activities db with
  | None => no_such_table "activities"
  | Some t =>
      if negb (0 <? col_max_participants r)%Z then
        Raise (IntegrityError "CHECK constraint failed: max_participants > 0")
      else if decide (is_Some (t !! name)) then
        Raise (IntegrityError "UNIQUE constraint failed: activities.name")
      else
        Return ({| activities := Some (<[name := r]> t);
                   registrations := registrations db |}, 1)
  end.

(** [INSERT INTO registrations (activity_name, email) VALUES (?, ?)], with
    the primary key on the pair and the foreign key to [activities(name)]
    ([PRAGMA foreign_keys = ON]). *)
Definition insert_registration (activity_name email : string) (db : database)
  : outcome (database * Z) :=
  match registrations db with
  | None => no_such_table "registrations"
  | Some regs =>
      match activities db with
      | None => no_such_table "main.activities"
      | Some t =>
          if decide ((activity_name, email) ∈ regs) then
            Raise (IntegrityError
              "UNIQUE constraint failed: registrations.activity_name, registrations.email")
          else if decide (is_Some (t !! activity_name)) then
            Return ({| activities := activities db;
                       registrations := Some ({[ (activity_name, email) ]} ∪ regs) |}, 1)
          else
            Raise (IntegrityError "FOREIGN KEY constraint failed")
      end
  end.

(** [DELETE FROM registrations WHERE activity_name = ? AND email = ?] *)
Definition delete_registration (activity_name email : string) (db : database)
  : outcome (database * Z) :=
  match registrations db with
  | None => no_such_table "registrations"
  | Some regs =>
      if decide ((activity_name, email) ∈ regs) then
        Return ({| activities := activities db;
                   registrations := Some (regs ∖ {[ (activity_name, email) ]}) |}, 1)
      else
        Return (db, 0)
  end.

(** [SELECT name FROM activities WHERE name = ?], then [fetchone()]. *)
Definition select_activity_name (name : string) (db : database)
  : outcome (option string) :=
  match activities db with
  | None => no_such_table "activities"
  | Some t => Return (match t !! name with Some _ => Some name | None => None end)
  end.

(** [SELECT 1 FROM registrations WHERE activity_name = ? AND email = ?],
    then [fetchone()]. *)
Definition select_registration (activity_name email : string) (db : database)
  : outcome (option Z) :=
  match registrations db with
  | None => no_such_table "registrations"
  | Some regs =>
      Return (if decide ((activity_name, email) ∈ regs) then Some 1 else None)
  end.

Definition by_name (r1 r2 : string * activity_row) : Prop := text_le r1.1 r2.1.

#[global] Instance by_name_dec : RelDecision by_name.
Proof. intros r1 r2. unfold by_name. apply _. Defined.

(** [SELECT name, description, schedule, max_participants FROM activities
    ORDER BY name], then [fetchall()]. *)
Definition select_activities (db : database)
  : outcome (list (string * activity_row)) :=
  match activities db with
  | None => no_such_table "activities"
  | Some t => Return (merge_sort by_name (map_to_list t))
  end.

(** [SELECT email FROM registrations WHERE activity_name = ? ORDER BY email],
    then [fetchall()]. *)
Definition select_emails (activity_name : string) (db : database)
  : outcome (list string) :=
  match registrations db with
  | None => no_such_table "registrations"
  | Some regs =>
      Return (merge_sort text_le
                (snd <$> filter (λ r, r.1 = activity_name) (elements regs)))
  end.

(** ** The application *)

Definition init_db : database → outcome unit * database :=
  with_connection (
    execute_schema create_activities ;;
    execute_schema create_registrations ;;
    existing_count ← execute_query count_activities;
    if (existing_count =? 0)%Z then
      for_each INITIAL_ACTIVITIES (λ '(name, details),
        execute_update (insert_activity name
          {| col_description := description details;
             col_schedule := schedule details;
             col_max_participants := max_participants details |}) ;;
        for_each (participants details) (λ email,
          execute_update (insert_registration name email) ;; mret ()))
    else mret ()).

Definition fetch_activities
  : database → outcome (list (string * activity_details)) * database :=
  with_connection (
    activities_rows ← execute_query select_activities;
    for_fold activities_rows [] (λ activities row,
      participant_rows ← execute_query (select_emails row.1);
      mret (dict_set row.1
             {| description := col_description row.2;
                schedule := col_schedule row.2;
                max_participants := col_max_participants row.2;
                participants := participant_rows |}
             activities))).

(** The JSON object a handler returns: its keys and values in order. *)
Definition json_object := list (string * string).

Definition signup_for_activity (activity_name email : string) (db : database)
  : outcome json_object * database :=
  match
    with_connection (
      activity_row ← execute_query (select_activity_name activity_name);
      match activity_row with
      | None => raise (HTTPException 404 "Activity not found")
      | Some _ =>
          existing_registration ←
            execute_query (select_registration activity_name email);
          match existing_registration with
          | Some _ => raise (HTTPException 400 "Student is already signed up")
          | None =>
              execute_update (insert_registration activity_name email) ;;
              mret ()
          end
      end) db
  with
  | (Return _, db') =>
      (Return [("message", "Signed up " +:+ email +:+ " for " +:+ activity_name)],
       db')
  | (Raise e, db') => (Raise e, db')
  end.

Definition unregister_from_activity (activity_name email : string) (db : database)
  : outcome json_object * database :=
  match
    with_connection (
      activity_row ← execute_query (select_activity_name activity_name);
      match activity_row with
      | None => raise (HTTPException 404 "Activity not found")
      | Some _ =>
          rowcount ← execute_update (delete_registration activity_name email);
          if (rowcount =? 0)%Z then
            raise (HTTPException 400 "Student is not signed up for this activity")
          else mret ()
      end) db
  with
  | (Return _, db') =>
      (Return [("message", "Unregistered " +:+ email +:+ " from " +:+ activity_name)],
       db')
  | (Raise e, db') => (Raise e, db')
  end.

(** [GET /activities] *)
Definition get_activities := fetch_activities.

(** ** The HTTP layer

    FastAPI answers 200 with the returned value when a handler returns, the
    status and detail of an [HTTPException] when it raises one, and 500 for
    any other exception. *)

Inductive http_body (A : Type) :=
  | Json (a : A)
  | Detail (detail : string)
  | InternalServerError.
Arguments Json {A} a.
Arguments Detail {A} detail.
Arguments InternalServerError {A}.

Definition respond {A} (r : outcome A) : Z * http_body A :=
  match r with
  | Return a => (200, Json a)
  | Raise (HTTPException status_code detail) => (status_code, Detail detail)
  | Raise _ => (500, InternalServerError)
  end.

(** ** Notions used to state the properties *)

(** The names the specification gives to the three errors. *)
Definition NotFound : exn := HTTPException 404 "Activity not found".
Definition Conflict : exn := HTTPException 400 "Student is already signed up".
Definition InvalidOperation : exn :=
  HTTPException 400 "Student is not signed up for this activity".

(** The store after row [(A, e)] joined, or left, table [registrations]. *)
Definition with_registration (s : store) (A e : string) : store :=
  {| activity_rows := activity_rows s;
     registration_rows := {[ (A, e) ]} ∪ registration_rows s |}.

Definition without_registration (s : store) (A e : string) : store :=
  {| activity_rows := activity_rows s;
     registration_rows := registration_rows s ∖ {[ (A, e) ]} |}.

Definition signed_up (A e : string) : json_object :=
  [("message", "Signed up " +:+ e +:+ " for " +:+ A)].

Definition unregistered (A e : string) : json_object :=
  [("message", "Unregistered " +:+ e +:+ " from " +:+ A)].

(** The e-mails registered for [A], as [fetch_activities] lists them. *)
Definition participants_of (s : store) (A : string) : list string :=
  merge_sort text_le
    (snd <$> filter (λ r, r.1 = A) (elements (registration_rows s))).

Definition details_of (s : store) (row : string * activity_row)
  : string * activity_details :=
  (row.1, {| description := col_description row.2;
             schedule := col_schedule row.2;
             max_participants := col_max_participants row.2;
             participants := participants_of s row.1 |}).

Definition listing (s : store) : list (string * activity_details) :=
  details_of s <$> merge_sort by_name (map_to_list (activity_rows s)).

Definition row_of (details : activity_details) : activity_row :=
  {| col_description := description details;
     col_schedule := schedule details;
     col_max_participants := max_participants details |}.

(** The rows the seed stands for. *)
Definition seed_store : store :=
  {| activity_rows := list_to_map (prod_map id row_of <$> INITIAL_ACTIVITIES);
     registration_rows :=
       list_to_set
         (INITIAL_ACTIVITIES ≫= λ a, pair a.1 <$> participants a.2) |}.

Definition empty_store : store :=
  {| activity_rows := ∅; registration_rows := ∅ |}.

(** The database once the two [CREATE TABLE IF NOT EXISTS] of [init_db]
    ran. *)
Definition with_schema (db : database) : database :=
  create_registrations (create_activities db).

(** The body of the seeding loop of [init_db]. *)
Definition seed_activity : string * activity_details → sql unit :=
  λ '(name, details),
    execute_update (insert_activity name
      {| col_description := description details;
         col_schedule := schedule details;
         col_max_participants := max_participants details |}) ;;
    for_each (participants details) (λ email,
      execute_update (insert_registration name email) ;; mret ()).

(** What [init_db] executes after its two [CREATE TABLE] statements. *)
Definition seed_if_empty : sql unit :=
  existing_count ← execute_query count_activities;
  if (existing_count =? 0)%Z then for_each INITIAL_ACTIVITIES seed_activity
  else mret ().

(** [db'] has every table and every row of [db]. *)
Definition grows (db db' : database) : Prop :=
  (∀ t, activities db = Some t → ∃ t', activities db' = Some t' ∧ t ⊆ t') ∧
  (∀ r, registrations db = Some r → ∃ r', registrations db' = Some r' ∧ r ⊆ r').

(** A computation that leaves what is committed alone and, when it returns,
    has only added tables and rows to what the connection sees. *)
Definition append_only {A} (m : sql A) : Prop :=
  ∀ c, disk (m c).2 = disk c ∧
       ∀ a, (m c).1 = Return a → grows (current c) (current (m c).2).

(** A computation that only reads. *)
Definition read_only {A} (m : sql A) : Prop := ∀ c, (m c).2 = c.

(** The constraints of the schema on the rows: [CHECK(max_participants > 0)]
    on every activity, and the foreign key of every registration. *)
Definition store_ok (s : store) : Prop :=
  map_Forall (λ _ row, 0 < col_max_participants row)%Z (activity_rows s) ∧
  set_Forall (λ r, is_Some (activity_rows s !! r.1)) (registration_rows s).

(** The databases the running application can be in: [startup_event] runs
    [init_db] on the database file, fresh at the first start, and every
    request runs one handler. *)
Inductive reachable : database → Prop :=
  | reach_startup : reachable (init_db fresh_db).2
  | reach_restart db : reachable db → reachable (init_db db).2
  | reach_get_activities db : reachable db → reachable (get_activities db).2
  | reach_signup db A e :
      reachable db → reachable (signup_for_activity A e db).2
  | reach_unregister db A e :
      reachable db → reachable (unregister_from_activity A e db).2.

(** ** Example stores *)

Definition chess_row : activity_row :=
  {| col_description := "Learn strategies and compete in chess tournaments";
     col_schedule := "Fridays, 3:30 PM - 5:00 PM";
     col_max_participants := 12 |}.

(** One activity of capacity 1, already full, and a registration row whose
    activity does not exist. *)
Definition small_store : store :=
  {| activity_rows :=
       {[ "Chess Club" := chess_row;
          "Solo" := {| col_description := "d"; col_schedule := "s";
                       col_max_participants := 1 |} ]};
     registration_rows :=
       {[ ("Chess Club", "michael@mergington.edu");
          ("Solo", "a@mergington.edu");
          ("Ghost Club", "b@mergington.edu") ]} |}.

(** No activity, and a registration row that the seed also holds. *)
Definition clash_store : store :=
  {| activity_rows := ∅;
     registration_rows := {[ ("Chess Club", "michael@mergington.edu") ]} |}.

(** No activity, and a registration row of an activity that is not seeded. *)
Definition orphan_store : store :=
  {| activity_rows := ∅;
     registration_rows := {[ ("Ghost Club", "b@mergington.edu") ]} |}.

(** * Properties *)

(** ** The text order is a total order *)

Section text_order.

Lemma ascii_compare_refl a : Ascii.compare a a = Eq.
Proof. unfold Ascii.compare. apply N.compare_refl. Qed.

Lemma ascii_compare_lt_trans a b c :
  Ascii.compare a b = Lt → Ascii.compare b c = Lt → Ascii.compare a c = Lt.
Proof.
  unfold Ascii.compare. rewrite !N.compare_lt_iff. apply N.lt_trans.
Qed.

Lemma string_compare_refl s : String.compare s s = Eq.
Proof. induction s as [|a s IH]; simpl; [done|]. by rewrite ascii_compare_refl. Qed.

Lemma string_compare_lt_trans s t u :
  String.compare s t = Lt → String.compare t u = Lt → String.compare s u = Lt.
Proof.
  revert t u. induction s as [|a s IH]; intros [|b t] [|c u]; simpl; try done.
  destruct (Ascii.compare a b) eqn:Hab; try done;
    destruct (Ascii.compare b c) eqn:Hbc; try done; intros Hst Htu.
  - apply Ascii.compare_eq_iff in Hab as ->. rewrite Hbc. eauto.
  - apply Ascii.compare_eq_iff in Hab as ->. by rewrite Hbc.
  - apply Ascii.compare_eq_iff in Hbc as <-. by rewrite Hab.
  - by rewrite (ascii_compare_lt_trans a b c).
Qed.

Lemma text_le_alt s t : text_le s t ↔ String.compare s t = Lt ∨ s = t.
Proof.
  unfold text_le, String.leb. split.
  - destruct (String.compare s t) eqn:Hc; try done; [|by left].
    right. by apply String.compare_eq_iff.
  - intros [-> | ->]; [done|]. by rewrite string_compare_refl.
Qed.

#[global] Instance text_le_refl : Reflexive text_le.
Proof. intros s. apply text_le_alt. by right. Qed.

#[global] Instance text_le_trans : Transitive text_le.
Proof.
  intros s t u. rewrite !text_le_alt. intros [Hst | ->] [Htu | ->]; eauto.
  left. by apply (string_compare_lt_trans s t u).
Qed.

#[global] Instance text_le_total : Total text_le.
Proof. intros s t. apply String.leb_total. Qed.

#[global] Instance text_le_antisym : AntiSymm (=) text_le.
Proof. intros s t. apply String.leb_antisym. Qed.

#[global] Instance by_name_trans : Transitive by_name.
Proof. intros r1 r2 r3. unfold by_name. apply text_le_trans. Qed.

#[global] Instance by_name_total : Total by_name.
Proof. intros r1 r2. unfold by_name. apply text_le_total. Qed.

End text_order.

(** ** The registration service, case by case *)

#[local] Arguments decide : simpl never.
#[local] Arguments lookup : simpl never.
#[local] Arguments elem_of : simpl never.
#[local] Arguments String.append : simpl never.

(** Runs the connection monad as far as the tables' contents allow. *)
Ltac run_sql :=
  unfold with_connection, mbind, sql_bind, mret, sql_ret, raise,
    execute_query, execute_update, execute_schema, current, no_such_table,
    select_activity_name, select_registration, insert_registration,
    delete_registration, count_activities;
  simpl.

Section registration_service.
Implicit Types (s : store) (db : database) (A e : string).

Lemma signup_for_activity_eq s A e :
  signup_for_activity A e (db_of s) =
    match activity_rows s !! A with
    | None => (Raise NotFound, db_of s)
    | Some _ =>
        if decide ((A, e) ∈ registration_rows s)
        then (Raise Conflict, db_of s)
        else (Return (signed_up A e), db_of (with_registration s A e))
    end.
Proof.
  unfold signup_for_activity. run_sql.
  destruct (activity_rows s !! A) as [row|] eqn:Hrow; run_sql; [|done].
  destruct (decide ((A, e) ∈ registration_rows s)); run_sql; [done|].
  rewrite Hrow, decide_False by done. by rewrite decide_True by (by eexists).
Qed.

Lemma unregister_from_activity_eq s A e :
  unregister_from_activity A e (db_of s) =
    match activity_rows s !! A with
    | None => (Raise NotFound, db_of s)
    | Some _ =>
        if decide ((A, e) ∈ registration_rows s)
        then (Return (unregistered A e), db_of (without_registration s A e))
        else (Raise InvalidOperation, db_of s)
    end.
Proof.
  unfold unregister_from_activity. run_sql.
  destruct (activity_rows s !! A) as [row|] eqn:Hrow; run_sql; [|done].
  by destruct (decide ((A, e) ∈ registration_rows s)).
Qed.

(** A handler that raised rolled its transaction back, whatever the
    database was. *)
Lemma signup_for_activity_raise db A e x db' :
  signup_for_activity A e db = (Raise x, db') → db' = db.
Proof.
  destruct db as [[t|] [regs|]]; unfold signup_for_activity; run_sql;
    try (by intros [= _ <-]).
  - destruct (t !! A) eqn:Hrow; run_sql; [|by intros [= _ <-]].
    destruct (decide ((A, e) ∈ regs)); run_sql; [by intros [= _ <-]|].
    rewrite Hrow, ?decide_False by done.
    by rewrite decide_True by (by eexists).
  - destruct (t !! A); run_sql; by intros [= _ <-].
Qed.

Lemma unregister_from_activity_raise db A e x db' :
  unregister_from_activity A e db = (Raise x, db') → db' = db.
Proof.
  destruct db as [[t|] [regs|]]; unfold unregister_from_activity; run_sql;
    try (by intros [= _ <-]).
  - destruct (t !! A); run_sql; [|by intros [= _ <-]].
    destruct (decide ((A, e) ∈ regs)); run_sql; [done|by intros [= _ <-]].
  - destruct (t !! A); run_sql; by intros [= _ <-].
Qed.

(** A handler returns only on a database that has both tables. *)
Lemma signup_for_activity_return db A e body db' :
  signup_for_activity A e db = (Return body, db') →
  ∃ s, db = db_of s ∧ is_Some (activity_rows s !! A) ∧
       ((A, e) ∉ registration_rows s) ∧
       body = signed_up A e ∧ db' = db_of (with_registration s A e).
Proof.
  destruct db as [[t|] [regs|]].
  - change (Build_database (Some t) (Some regs))
      with (db_of (Build_store t regs)).
    rewrite signup_for_activity_eq; cbn [activity_rows registration_rows].
    destruct (t !! A) eqn:Hrow; [|done]. case_decide; [done|].
    intros [= <- <-]. by eexists (Build_store t regs).
  - unfold signup_for_activity. run_sql. by destruct (t !! A).
  - done.
  - done.
Qed.

Lemma unregister_from_activity_return db A e body db' :
  unregister_from_activity A e db = (Return body, db') →
  ∃ s, db = db_of s ∧ is_Some (activity_rows s !! A) ∧
       (A, e) ∈ registration_rows s ∧
       body = unregistered A e ∧ db' = db_of (without_registration s A e).
Proof.
  destruct db as [[t|] [regs|]].
  - change (Build_database (Some t) (Some regs))
      with (db_of (Build_store t regs)).
    rewrite unregister_from_activity_eq; cbn [activity_rows registration_rows].
    destruct (t !! A) eqn:Hrow; [|done]. case_decide; [|done].
    intros [= <- <-]. by eexists (Build_store t regs).
  - unfold unregister_from_activity. run_sql. by destruct (t !! A).
  - done.
  - done.
Qed.

End registration_service.

(** ** The activity repository *)

Section activity_repository.
Implicit Types (s : store) (A e : string).

(** [participants_of] is what the repository's query returns. *)
Lemma select_emails_eq s A :
  select_emails A (db_of s) = Return (participants_of s A).
Proof. reflexivity. Qed.

Lemma dict_set_fresh {V} k (v : V) d :
  k ∉ d.*1 → dict_set k v d = d ++ [(k, v)].
Proof.
  induction d as [|[k' v'] d IH]; intros Hk; [done|].
  cbn [dict_set]. rewrite fmap_cons, not_elem_of_cons in Hk.
  destruct Hk as [Hne Hk]. cbn [fst] in Hne.
  rewrite decide_False by done. by rewrite IH.
Qed.

Lemma for_fold_listing s rows acc c :
  current c = db_of s →
  NoDup (acc.*1 ++ rows.*1) →
  for_fold rows acc (λ activities row,
    participant_rows ← execute_query (select_emails row.1);
    mret (dict_set row.1
           {| description := col_description row.2;
              schedule := col_schedule row.2;
              max_participants := col_max_participants row.2;
              participants := participant_rows |}
           activities)) c
  = (Return (acc ++ (details_of s <$> rows)), c).
Proof.
  intros Hc. revert acc.
  induction rows as [|row rows IH]; intros acc Hnd.
  - cbn. by rewrite app_nil_r.
  - cbn [for_fold]. unfold mbind, sql_bind at 1.
    unfold mbind, sql_bind at 1. unfold execute_query at 1.
    rewrite Hc. unfold select_emails at 1. cbn [db_of registrations].
    unfold mret, sql_ret at 1.
    rewrite fmap_cons in Hnd.
    rewrite dict_set_fresh.
    + rewrite IH.
      * by rewrite fmap_cons, <- app_assoc.
      * by rewrite fmap_app, <- app_assoc.
    + apply NoDup_app in Hnd as (_ & Hdisj & _).
      intros Hin. apply (Hdisj _ Hin). by left.
Qed.

Lemma select_activities_NoDup s :
  NoDup (merge_sort by_name (map_to_list (activity_rows s))).*1.
Proof.
  rewrite merge_sort_Permutation. apply NoDup_fst_map_to_list.
Qed.

Lemma fetch_activities_eq s :
  fetch_activities (db_of s) = (Return (listing s), db_of s).
Proof.
  unfold fetch_activities, with_connection.
  unfold mbind, sql_bind at 1. unfold execute_query at 1.
  unfold select_activities. cbn [current txn disk default db_of activities].
  rewrite (for_fold_listing s); [done..|].
  apply select_activities_NoDup.
Qed.

Lemma listing_keys s :
  (listing s).*1 = (merge_sort by_name (map_to_list (activity_rows s))).*1.
Proof. unfold listing. rewrite <- list_fmap_compose. done. Qed.

Lemma listing_keys_sorted s : StronglySorted text_le (listing s).*1.
Proof.
  rewrite listing_keys.
  apply (StronglySorted_fmap fst by_name text_le); [done|].
  apply StronglySorted_merge_sort; apply _.
Qed.

Lemma listing_keys_NoDup s : NoDup (listing s).*1.
Proof. rewrite listing_keys. apply select_activities_NoDup. Qed.

Lemma elem_of_listing s A d :
  (A, d) ∈ listing s ↔
  ∃ row, activity_rows s !! A = Some row ∧ (A, d) = details_of s (A, row).
Proof.
  unfold listing. rewrite list_elem_of_fmap. split.
  - intros ([A' row] & Heq & Hin).
    rewrite merge_sort_Permutation, elem_of_map_to_list in Hin.
    assert (A' = A) as -> by (by injection Heq). eauto.
  - intros (row & Hrow & Heq). exists (A, row). split; [done|].
    by rewrite merge_sort_Permutation, elem_of_map_to_list.
Qed.

Lemma elem_of_participants_of s A e :
  e ∈ participants_of s A ↔ (A, e) ∈ registration_rows s.
Proof.
  unfold participants_of.
  rewrite merge_sort_Permutation, list_elem_of_fmap. split.
  - intros ([A' e'] & -> & Hin).
    apply list_elem_of_filter in Hin as [HA Hin]. cbn in HA. subst A'.
    by apply elem_of_elements in Hin.
  - intros Hin. exists (A, e). split; [done|].
    apply list_elem_of_filter. split; [done|]. by apply elem_of_elements.
Qed.

Lemma participants_of_sorted s A : StronglySorted text_le (participants_of s A).
Proof. apply StronglySorted_merge_sort; apply _. Qed.

Lemma participants_of_NoDup s A : NoDup (participants_of s A).
Proof.
  unfold participants_of. rewrite merge_sort_Permutation.
  apply NoDup_fmap_2_strong.
  - intros [A1 e1] [A2 e2] H1 H2 Heq.
    apply list_elem_of_filter in H1 as [H1 _].
    apply list_elem_of_filter in H2 as [H2 _].
    cbn in *. by subst.
  - apply NoDup_filter, NoDup_elements.
Qed.

End activity_repository.

Section listing_lookup.
Implicit Types (s : store) (A e : string).

Lemma dict_get_elem_of {V} k (v : V) d :
  NoDup d.*1 → (k, v) ∈ d → dict_get k d = Some v.
Proof.
  induction d as [|[k' v'] d IH]; intros Hnd Hin; [by apply elem_of_nil in Hin|].
  rewrite fmap_cons in Hnd. apply NoDup_cons in Hnd as [Hk' Hnd].
  cbn [dict_get]. apply elem_of_cons in Hin as [[= <- <-] | Hin].
  - by rewrite decide_True.
  - rewrite decide_False; [by apply IH|].
    intros ->. apply Hk'. apply list_elem_of_fmap. by exists (k, v).
Qed.

Lemma dict_get_listing s A row :
  activity_rows s !! A = Some row →
  dict_get A (listing s) = Some (details_of s (A, row)).2.
Proof.
  intros Hrow. apply dict_get_elem_of; [apply listing_keys_NoDup|].
  apply elem_of_listing. by exists row.
Qed.

Lemma participants_of_with_registration s A e :
  (A, e) ∉ registration_rows s →
  participants_of (with_registration s A e) A ≡ₚ e :: participants_of s A.
Proof.
  intros Hnew. apply NoDup_Permutation.
  - apply participants_of_NoDup.
  - apply NoDup_cons. split; [|apply participants_of_NoDup].
    by rewrite elem_of_participants_of.
  - intros e'. rewrite elem_of_cons, !elem_of_participants_of.
    unfold with_registration; cbn [registration_rows].
    rewrite elem_of_union, elem_of_singleton. split.
    + intros [[= ->] | Hin]; auto.
    + intros [-> | Hin]; auto.
Qed.

End listing_lookup.

(** ** The store initializer *)

Section store_initializer.
Implicit Types (s : store).

Lemma init_db_seeded s :
  activity_rows s ≠ ∅ → init_db (db_of s) = (Return (), db_of s).
Proof.
  intros Hne. unfold init_db. run_sql.
  destruct (Z.eqb_spec (Z.of_nat (size (activity_rows s))) 0) as [Hz|_]; [|done].
  destruct Hne. apply map_size_empty_iff. lia.
Qed.

Lemma init_db_fresh : init_db fresh_db = (Return (), db_of seed_store).
Proof. vm_compute. reflexivity. Qed.

Lemma init_db_empty : init_db (db_of empty_store) = (Return (), db_of seed_store).
Proof. vm_compute. reflexivity. Qed.

End store_initializer.

(** * The specification's claims *)

(** C1: for an activity [A] of the store and an e-mail [e], a sign-up of a
    pair already registered raises HTTP 400 "Student is already signed up"
    and leaves the store as it was; a sign-up of a pair not yet registered
    returns (HTTP 200) the message "Signed up e for A", changes the store
    into one that holds the registration, and the same request repeated on
    that store raises the 400. *)
Theorem signup_conflict_or_success (s : store) (A e : string) :
  is_Some (activity_rows s !! A) →
  ((A, e) ∈ registration_rows s →
     signup_for_activity A e (db_of s)
       = (Raise (HTTPException 400 "Student is already signed up"), db_of s) ∧
     respond (signup_for_activity A e (db_of s)).1
       = (400, Detail "Student is already signed up")) ∧
  ((A, e) ∉ registration_rows s →
     ∃ s',
       signup_for_activity A e (db_of s)
         = (Return [("message", "Signed up " +:+ e +:+ " for " +:+ A)], db_of s') ∧
       respond (signup_for_activity A e (db_of s)).1
         = (200, Json [("message", "Signed up " +:+ e +:+ " for " +:+ A)]) ∧
       activity_rows s' = activity_rows s ∧
       (A, e) ∈ registration_rows s' ∧
       signup_for_activity A e (db_of s')
         = (Raise (HTTPException 400 "Student is already signed up"), db_of s')).
Proof.
  intros [row Hrow]. split.
  - intros Hin. rewrite signup_for_activity_eq, Hrow, decide_True by done.
    done.
  - intros Hnew. exists (with_registration s A e).
    rewrite !signup_for_activity_eq. cbn [with_registration activity_rows
      registration_rows]. rewrite Hrow, decide_False by done.
    rewrite decide_True by set_solver. repeat split. set_solver.
Qed.

Lemma signup_conflict_or_success_witness :
  signup_for_activity "Chess Club" "michael@mergington.edu" (db_of small_store)
    = (Raise (HTTPException 400 "Student is already signed up"), db_of small_store)
  ∧ ∃ s', signup_for_activity "Chess Club" "new@mergington.edu" (db_of small_store)
    = (Return [("message", "Signed up new@mergington.edu for Chess Club")],
       db_of s').
Proof.
  split.
  - apply (signup_conflict_or_success small_store "Chess Club"
             "michael@mergington.edu").
    + exists chess_row. vm_compute. reflexivity.
    + vm_compute. reflexivity.
  - destruct (signup_conflict_or_success small_store "Chess Club"
                "new@mergington.edu") as [_ Hnew].
    + exists chess_row. vm_compute. reflexivity.
    + destruct Hnew as (s' & Hs' & _).
      * vm_compute. discriminate.
      * exists s'. exact Hs'.
Defined.

(** C2: when the activities table holds no row named [name], sign-up and
    unregister both raise HTTP 404 "Activity not found" and leave the
    database as it was, whatever the registrations table holds. *)
Theorem unknown_activity_not_found
    (db : database) (t : gmap string activity_row) (name email : string) :
  activities db = Some t →
  t !! name = None →
  signup_for_activity name email db
    = (Raise (HTTPException 404 "Activity not found"), db) ∧
  unregister_from_activity name email db
    = (Raise (HTTPException 404 "Activity not found"), db) ∧
  respond (signup_for_activity name email db).1
    = (404, Detail "Activity not found") ∧
  respond (unregister_from_activity name email db).1
    = (404, Detail "Activity not found").
Proof.
  intros Ht Hname.
  assert (signup_for_activity name email db
            = (Raise (HTTPException 404 "Activity not found"), db)) as Hs.
  { unfold signup_for_activity. run_sql. by rewrite Ht, Hname. }
  assert (unregister_from_activity name email db
            = (Raise (HTTPException 404 "Activity not found"), db)) as Hu.
  { unfold unregister_from_activity. run_sql. by rewrite Ht, Hname. }
  by rewrite Hs, Hu.
Qed.

Lemma unknown_activity_not_found_witness :
  signup_for_activity "Ghost Club" "b@mergington.edu" (db_of small_store)
    = (Raise (HTTPException 404 "Activity not found"), db_of small_store) ∧
  unregister_from_activity "Ghost Club" "b@mergington.edu" (db_of small_store)
    = (Raise (HTTPException 404 "Activity not found"), db_of small_store).
Proof.
  destruct (unknown_activity_not_found (db_of small_store)
              (activity_rows small_store) "Ghost Club" "b@mergington.edu")
    as (Hs & Hu & _).
  - reflexivity.
  - vm_compute. reflexivity.
  - split; [exact Hs | exact Hu].
Defined.

(** C3: for an activity [A] of the store and an e-mail [e], unregistering
    a pair that is not registered raises HTTP 400 "Student is not signed up
    for this activity" and leaves the store as it was; unregistering a
    registered pair returns (HTTP 200) the message "Unregistered e from A"
    and the store no longer holds the registration. *)
Theorem unregister_invalid_or_success (s : store) (A e : string) :
  is_Some (activity_rows s !! A) →
  ((A, e) ∉ registration_rows s →
     unregister_from_activity A e (db_of s)
       = (Raise (HTTPException 400 "Student is not signed up for this activity"),
          db_of s) ∧
     respond (unregister_from_activity A e (db_of s)).1
       = (400, Detail "Student is not signed up for this activity")) ∧
  ((A, e) ∈ registration_rows s →
     ∃ s',
       unregister_from_activity A e (db_of s)
         = (Return [("message", "Unregistered " +:+ e +:+ " from " +:+ A)],
            db_of s') ∧
       respond (unregister_from_activity A e (db_of s)).1
         = (200, Json [("message", "Unregistered " +:+ e +:+ " from " +:+ A)]) ∧
       activity_rows s' = activity_rows s ∧
       (A, e) ∉ registration_rows s').
Proof.
  intros [row Hrow]. split.
  - intros Hnew.
    by rewrite unregister_from_activity_eq, Hrow, decide_False by done.
  - intros Hin. exists (without_registration s A e).
    rewrite unregister_from_activity_eq, Hrow, decide_True by done.
    repeat split. cbn [without_registration registration_rows].
    rewrite elem_of_difference, elem_of_singleton. by intros [_ []].
Qed.

Lemma unregister_invalid_or_success_witness :
  unregister_from_activity "Chess Club" "new@mergington.edu" (db_of small_store)
    = (Raise (HTTPException 400 "Student is not signed up for this activity"),
       db_of small_store)
  ∧ ∃ s', unregister_from_activity "Chess Club" "michael@mergington.edu"
            (db_of small_store)
    = (Return [("message", "Unregistered michael@mergington.edu from Chess Club")],
       db_of s').
Proof.
  split.
  - apply (unregister_invalid_or_success small_store "Chess Club"
             "new@mergington.edu").
    + exists chess_row. vm_compute. reflexivity.
    + vm_compute. discriminate.
  - destruct (unregister_invalid_or_success small_store "Chess Club"
                "michael@mergington.edu") as [_ Hin].
    + exists chess_row. vm_compute. reflexivity.
    + destruct Hin as (s' & Hs' & _).
      * vm_compute. reflexivity.
      * exists s'. exact Hs'.
Defined.

(** C4: when a sign-up of [e] for [A] returns, the dictionary
    [fetch_activities] computes next has an entry for [A] whose participants
    include [e]; when an unregister of [e] from [A] returns, the entry of
    [A] in the next [fetch_activities] does not list [e]. *)
Theorem signup_unregister_round_trip
    (db db' : database) (A e : string) (body : json_object) :
  (signup_for_activity A e db = (Return body, db') →
     ∃ dict d, fetch_activities db' = (Return dict, db') ∧
               dict_get A dict = Some d ∧ e ∈ participants d) ∧
  (unregister_from_activity A e db = (Return body, db') →
     ∃ dict d, fetch_activities db' = (Return dict, db') ∧
               dict_get A dict = Some d ∧ e ∉ participants d).
Proof.
  split; intros Hrun.
  - apply signup_for_activity_return in Hrun
      as (s & -> & [row Hrow] & Hnew & _ & ->).
    eexists _, _. split; [apply fetch_activities_eq|]. split.
    + by apply (dict_get_listing _ A row).
    + cbn [details_of snd fst participants]. apply elem_of_participants_of.
      cbn [with_registration registration_rows].
      apply elem_of_union_l. by apply elem_of_singleton.
  - apply unregister_from_activity_return in Hrun
      as (s & -> & [row Hrow] & Hin & _ & ->).
    eexists _, _. split; [apply fetch_activities_eq|]. split.
    + by apply (dict_get_listing _ A row).
    + cbn [details_of snd fst participants]. rewrite elem_of_participants_of.
      cbn [without_registration registration_rows].
      rewrite elem_of_difference, elem_of_singleton. by intros [_ []].
Qed.

Lemma signup_unregister_round_trip_witness :
  (∃ db' dict d,
     signup_for_activity "Chess Club" "new@mergington.edu" (db_of small_store)
       = (Return [("message", "Signed up new@mergington.edu for Chess Club")], db') ∧
     fetch_activities db' = (Return dict, db') ∧
     dict_get "Chess Club" dict = Some d ∧
     "new@mergington.edu" ∈ participants d) ∧
  (∃ db' dict d,
     unregister_from_activity "Chess Club" "michael@mergington.edu"
       (db_of small_store)
       = (Return [("message", "Unregistered michael@mergington.edu from Chess Club")],
          db') ∧
     fetch_activities db' = (Return dict, db') ∧
     dict_get "Chess Club" dict = Some d ∧
     "michael@mergington.edu" ∉ participants d).
Proof.
  split.
  - set (r := signup_for_activity "Chess Club" "new@mergington.edu"
                (db_of small_store)).
    assert (r = (Return [("message", "Signed up new@mergington.edu for Chess Club")],
                 r.2)) as Hr by (vm_compute; reflexivity).
    destruct (signup_unregister_round_trip (db_of small_store) r.2
                "Chess Club" "new@mergington.edu"
                [("message", "Signed up new@mergington.edu for Chess Club")])
      as [Hs _].
    destruct (Hs Hr) as (dict & d & Hd). exists r.2, dict, d. by split.
  - set (r := unregister_from_activity "Chess Club" "michael@mergington.edu"
                (db_of small_store)).
    assert (r = (Return [("message",
                          "Unregistered michael@mergington.edu from Chess Club")],
                 r.2)) as Hr by (vm_compute; reflexivity).
    destruct (signup_unregister_round_trip (db_of small_store) r.2
                "Chess Club" "michael@mergington.edu"
                [("message", "Unregistered michael@mergington.edu from Chess Club")])
      as [_ Hu].
    destruct (Hu Hr) as (dict & d & Hd). exists r.2, dict, d. by split.
Defined.

(** C5: sign-up never looks at the capacity: for an activity [A] of the
    store and an e-mail [e] not yet registered for it, the sign-up returns
    and [A] has one participant more than before, however many it had; when
    the participants already were [max_participants] or more, they are more
    than [max_participants] afterwards. *)
Theorem signup_ignores_capacity (s : store) (A e : string) (row : activity_row) :
  activity_rows s !! A = Some row →
  (A, e) ∉ registration_rows s →
  signup_for_activity A e (db_of s)
    = (Return [("message", "Signed up " +:+ e +:+ " for " +:+ A)],
       db_of (with_registration s A e)) ∧
  length (participants_of (with_registration s A e) A)
    = S (length (participants_of s A)) ∧
  (col_max_participants row ≤ Z.of_nat (length (participants_of s A)) →
   col_max_participants row
     < Z.of_nat (length (participants_of (with_registration s A e) A)))%Z.
Proof.
  intros Hrow Hnew.
  assert (length (participants_of (with_registration s A e) A)
            = S (length (participants_of s A))) as Hlen.
  { by rewrite participants_of_with_registration. }
  split; [|split; [done|lia]].
  by rewrite signup_for_activity_eq, Hrow, decide_False by done.
Qed.

Lemma signup_ignores_capacity_witness :
  (col_max_participants {| col_description := "d"; col_schedule := "s";
                           col_max_participants := 1 |}
     ≤ Z.of_nat (length (participants_of small_store "Solo")))%Z ∧
  signup_for_activity "Solo" "b@mergington.edu" (db_of small_store)
    = (Return [("message", "Signed up b@mergington.edu for Solo")],
       db_of (with_registration small_store "Solo" "b@mergington.edu")) ∧
  (1 < Z.of_nat (length (participants_of
           (with_registration small_store "Solo" "b@mergington.edu") "Solo")))%Z.
Proof.
  assert (col_max_participants {| col_description := "d"; col_schedule := "s";
                                   col_max_participants := 1 |}
            ≤ Z.of_nat (length (participants_of small_store "Solo")))%Z as Hfull.
  { vm_compute. discriminate. }
  destruct (signup_ignores_capacity small_store "Solo" "b@mergington.edu"
              {| col_description := "d"; col_schedule := "s";
                 col_max_participants := 1 |}) as (Hs & _ & Hover).
  - vm_compute. reflexivity.
  - vm_compute. discriminate.
  - split; [exact Hfull|]. split; [exact Hs|]. exact (Hover Hfull).
Defined.

(** C6: on every store [fetch_activities] returns, without changing the
    store, a dictionary whose keys are exactly the stored activity names in
    ascending text order, each once; the entry of a name carries the
    description, schedule and max_participants of its stored row, and its
    participants are exactly the e-mails registered for that name, in
    ascending text order, each once. *)
Theorem fetch_activities_ordered (s : store) :
  ∃ dict,
    fetch_activities (db_of s) = (Return dict, db_of s) ∧
    StronglySorted text_le dict.*1 ∧
    NoDup dict.*1 ∧
    (∀ name, name ∈ dict.*1 ↔ is_Some (activity_rows s !! name)) ∧
    (∀ name d, (name, d) ∈ dict →
       activity_rows s !! name
         = Some {| col_description := description d;
                   col_schedule := schedule d;
                   col_max_participants := max_participants d |} ∧
       StronglySorted text_le (participants d) ∧
       NoDup (participants d) ∧
       ∀ email, email ∈ participants d ↔ (name, email) ∈ registration_rows s).
Proof.
  exists (listing s). split; [apply fetch_activities_eq|].
  split; [apply listing_keys_sorted|]. split; [apply listing_keys_NoDup|]. split.
  - intros name. rewrite list_elem_of_fmap. split.
    + intros ([name' d] & -> & Hin).
      apply elem_of_listing in Hin as (row & Hrow & _). by exists row.
    + intros [row Hrow]. eexists (name, _). split; [done|].
      apply elem_of_listing. by exists row.
  - intros name d Hin. apply elem_of_listing in Hin as (row & Hrow & Heq).
    injection Heq as ->. cbn [fst snd description schedule max_participants
      participants]. destruct row as [desc sched maxp]. split; [done|].
    split; [apply participants_of_sorted|].
    split; [apply participants_of_NoDup|]. apply elem_of_participants_of.
Qed.

Lemma fetch_activities_ordered_witness :
  fetch_activities (db_of small_store)
    = (Return [("Chess Club",
                {| description := "Learn strategies and compete in chess tournaments";
                   schedule := "Fridays, 3:30 PM - 5:00 PM";
                   max_participants := 12;
                   participants := ["michael@mergington.edu"] |});
               ("Solo",
                {| description := "d"; schedule := "s"; max_participants := 1;
                   participants := ["a@mergington.edu"] |})],
       db_of small_store)
  ∧ ∃ dict, fetch_activities (db_of small_store) = (Return dict, db_of small_store)
            ∧ StronglySorted text_le dict.*1.
Proof.
  split; [vm_compute; reflexivity|].
  destruct (fetch_activities_ordered small_store) as (dict & Hrun & Hsorted & _).
  exists dict. split; [exact Hrun | exact Hsorted].
Defined.

(** C7: initialising a fresh store, whether the database file has no table
    yet or has the two tables empty, and then listing the activities returns
    exactly the nine seeded activities, in name order, each with its seeded
    participants in e-mail order; the entry of "Chess Club" lists exactly
    daniel@mergington.edu and michael@mergington.edu, in that order. *)
Theorem fresh_store_lists_seed :
  ∃ db dict,
    init_db fresh_db = (Return (), db) ∧
    init_db (db_of empty_store) = (Return (), db) ∧
    fetch_activities db = (Return dict, db) ∧
    dict =
      [("Art Club",
        {| description := "Explore your creativity through painting and drawing";
           schedule := "Thursdays, 3:30 PM - 5:00 PM";
           max_participants := 15;
           participants := ["amelia@mergington.edu"; "harper@mergington.edu"] |});
       ("Basketball Team",
        {| description := "Practice and play basketball with the school team";
           schedule := "Wednesdays and Fridays, 3:30 PM - 5:00 PM";
           max_participants := 15;
           participants := ["ava@mergington.edu"; "mia@mergington.edu"] |});
       ("Chess Club",
        {| description := "Learn strategies and compete in chess tournaments";
           schedule := "Fridays, 3:30 PM - 5:00 PM";
           max_participants := 12;
           participants := ["daniel@mergington.edu"; "michael@mergington.edu"] |});
       ("Debate Team",
        {| description := "Develop public speaking and argumentation skills";
           schedule := "Fridays, 4:00 PM - 5:30 PM";
           max_participants := 12;
           participants := ["charlotte@mergington.edu"; "henry@mergington.edu"] |});
       ("Drama Club",
        {| description := "Act, direct, and produce plays and performances";
           schedule := "Mondays and Wednesdays, 4:00 PM - 5:30 PM";
           max_participants := 20;
           participants := ["ella@mergington.edu"; "scarlett@mergington.edu"] |});
       ("Gym Class",
        {| description := "Physical education and sports activities";
           schedule := "Mondays, Wednesdays, Fridays, 2:00 PM - 3:00 PM";
           max_participants := 30;
           participants := ["john@mergington.edu"; "olivia@mergington.edu"] |});
       ("Math Club",
        {| description := "Solve challenging problems and participate in math competitions";
           schedule := "Tuesdays, 3:30 PM - 4:30 PM";
           max_participants := 10;
           participants := ["benjamin@mergington.edu"; "james@mergington.edu"] |});
       ("Programming Class",
        {| description := "Learn programming fundamentals and build software projects";
           schedule := "Tuesdays and Thursdays, 3:30 PM - 4:30 PM";
           max_participants := 20;
           participants := ["emma@mergington.edu"; "sophia@mergington.edu"] |});
       ("Soccer Team",
        {| description := "Join the school soccer team and compete in matches";
           schedule := "Tuesdays and Thursdays, 4:00 PM - 5:30 PM";
           max_participants := 22;
           participants := ["liam@mergington.edu"; "noah@mergington.edu"] |})] ∧
    length dict = 9%nat ∧
    dict.*1 ≡ₚ INITIAL_ACTIVITIES.*1 ∧
    participants <$> dict_get "Chess Club" dict
      = Some ["daniel@mergington.edu"; "michael@mergington.edu"].
Proof.
  exists (db_of seed_store), (listing seed_store).
  split; [apply init_db_fresh|]. split; [apply init_db_empty|].
  split; [apply fetch_activities_eq|].
  split; [vm_compute; reflexivity|].
  split; [vm_compute; reflexivity|].
  split; [|vm_compute; reflexivity].
  assert ((listing seed_store).*1
            = ["Art Club"; "Basketball Team"; "Chess Club"; "Debate Team";
               "Drama Club"; "Gym Class"; "Math Club"; "Programming Class";
               "Soccer Team"]) as Hkeys by (vm_compute; reflexivity).
  apply NoDup_Permutation.
  - apply listing_keys_NoDup.
  - apply (bool_decide_unpack _). vm_compute. exact I.
  - intros name. rewrite Hkeys.
    cbn [INITIAL_ACTIVITIES fmap list_fmap fst].
    rewrite !elem_of_cons, !elem_of_nil. tauto.
Qed.

(** C8: on a store with at least one activity row the initializer returns
    and leaves every table as it was; it changes the store only when the
    activities table is empty. *)
Theorem init_db_idempotent (s : store) :
  (activity_rows s ≠ ∅ → init_db (db_of s) = (Return (), db_of s)) ∧
  ((init_db (db_of s)).2 ≠ db_of s → activity_rows s = ∅).
Proof.
  split; [apply init_db_seeded|]. intros Hchanged.
  destruct (decide (activity_rows s = ∅)) as [|Hne]; [done|].
  destruct Hchanged. by rewrite init_db_seeded.
Qed.

Lemma init_db_idempotent_witness :
  init_db (db_of small_store) = (Return (), db_of small_store) ∧
  init_db (db_of seed_store) = (Return (), db_of seed_store).
Proof.
  split.
  - apply (init_db_idempotent small_store).
    apply (bool_decide_unpack _). vm_compute. exact I.
  - apply (init_db_idempotent seed_store).
    apply (bool_decide_unpack _). vm_compute. exact I.
Defined.

(** C9: whenever sign-up or unregister raises (404, 400, or any other
    exception), the database after the call is the database before it. *)
Theorem failure_leaves_store_unchanged
    (db db' : database) (A e : string) (x : exn) :
  (signup_for_activity A e db = (Raise x, db') → db' = db) ∧
  (unregister_from_activity A e db = (Raise x, db') → db' = db).
Proof.
  split.
  - apply signup_for_activity_raise.
  - apply unregister_from_activity_raise.
Qed.

Lemma failure_leaves_store_unchanged_witness :
  (signup_for_activity "Chess Club" "michael@mergington.edu" (db_of small_store)).2
    = db_of small_store ∧
  (unregister_from_activity "Ghost Club" "b@mergington.edu" (db_of small_store)).2
    = db_of small_store.
Proof.
  split.
  - apply (proj1 (failure_leaves_store_unchanged (db_of small_store) _
             "Chess Club" "michael@mergington.edu"
             (HTTPException 400 "Student is already signed up"))).
    vm_compute. reflexivity.
  - apply (proj2 (failure_leaves_store_unchanged (db_of small_store) _
             "Ghost Club" "b@mergington.edu"
             (HTTPException 404 "Activity not found"))).
    vm_compute. reflexivity.
Defined.

(** C10: a sign-up that returns ran on a store that did not hold the
    registration [(A, e)] and leaves the store with the same activity rows
    and with the registrations it had plus [(A, e)]; an unregister that
    returns ran on a store that held [(A, e)] and leaves the store with the
    same activity rows and with the registrations it had minus [(A, e)].
    Either way every other registration is in the store afterwards exactly
    when it was before. *)
Theorem success_changes_one_registration
    (db db' : database) (A e : string) (body : json_object) :
  (signup_for_activity A e db = (Return body, db') →
     ∃ s s', db = db_of s ∧ db' = db_of s' ∧
       activity_rows s' = activity_rows s ∧
       ((A, e) ∉ registration_rows s) ∧
       registration_rows s' = {[ (A, e) ]} ∪ registration_rows s ∧
       ∀ r, r ≠ (A, e) → r ∈ registration_rows s' ↔ r ∈ registration_rows s) ∧
  (unregister_from_activity A e db = (Return body, db') →
     ∃ s s', db = db_of s ∧ db' = db_of s' ∧
       activity_rows s' = activity_rows s ∧
       (A, e) ∈ registration_rows s ∧
       registration_rows s' = registration_rows s ∖ {[ (A, e) ]} ∧
       ∀ r, r ≠ (A, e) → r ∈ registration_rows s' ↔ r ∈ registration_rows s).
Proof.
  split; intros Hrun.
  - apply signup_for_activity_return in Hrun as (s & -> & _ & Hnew & _ & ->).
    exists s, (with_registration s A e). repeat split; try done.
    + cbn [with_registration registration_rows].
      rewrite elem_of_union, elem_of_singleton. by intros [|].
    + intros Hin. cbn [with_registration registration_rows].
      by apply elem_of_union_r.
  - apply unregister_from_activity_return in Hrun as (s & -> & _ & Hin & _ & ->).
    exists s, (without_registration s A e). repeat split; try done.
    + cbn [without_registration registration_rows].
      rewrite elem_of_difference. by intros [].
    + intros Hr. cbn [without_registration registration_rows].
      rewrite elem_of_difference, elem_of_singleton. done.
Qed.

Lemma success_changes_one_registration_witness :
  (∃ s', (signup_for_activity "Chess Club" "new@mergington.edu"
            (db_of small_store)).2 = db_of s' ∧
         activity_rows s' = activity_rows small_store ∧
         registration_rows s'
           = {[ ("Chess Club", "new@mergington.edu") ]}
               ∪ registration_rows small_store) ∧
  (∃ s', (unregister_from_activity "Chess Club" "michael@mergington.edu"
            (db_of small_store)).2 = db_of s' ∧
         activity_rows s' = activity_rows small_store ∧
         registration_rows s'
           = registration_rows small_store
               ∖ {[ ("Chess Club", "michael@mergington.edu") ]}).
Proof.
  split.
  - set (r := signup_for_activity "Chess Club" "new@mergington.edu"
                (db_of small_store)).
    assert (r = (Return [("message", "Signed up new@mergington.edu for Chess Club")],
                 r.2)) as Hr by (vm_compute; reflexivity).
    destruct (success_changes_one_registration (db_of small_store) r.2
                "Chess Club" "new@mergington.edu"
                [("message", "Signed up new@mergington.edu for Chess Club")])
      as [Hs _].
    destruct (Hs Hr) as (s & s' & Hdb & Hdb' & Hacts & _ & Hregs & _).
    destruct s as [acts regs]. injection Hdb as <- <-.
    exists s'. split; [exact Hdb'|]. split; [exact Hacts | exact Hregs].
  - set (r := unregister_from_activity "Chess Club" "michael@mergington.edu"
                (db_of small_store)).
    assert (r = (Return [("message",
                          "Unregistered michael@mergington.edu from Chess Club")],
                 r.2)) as Hr by (vm_compute; reflexivity).
    destruct (success_changes_one_registration (db_of small_store) r.2
                "Chess Club" "michael@mergington.edu"
                [("message", "Unregistered michael@mergington.edu from Chess Club")])
      as [_ Hu].
    destruct (Hu Hr) as (s & s' & Hdb & Hdb' & Hacts & _ & Hregs & _).
    destruct s as [acts regs]. injection Hdb as <- <-.
    exists s'. split; [exact Hdb'|]. split; [exact Hacts | exact Hregs].
Defined.

(** * Further properties of the code *)

(** ** Computations that only add rows *)

Section append_only.
Implicit Types (db : database) (c : connection).

Lemma grows_refl db : grows db db.
Proof. split; intros x Hx; by exists x. Qed.

Lemma grows_trans db1 db2 db3 : grows db1 db2 → grows db2 db3 → grows db1 db3.
Proof.
  intros [Ha12 Hr12] [Ha23 Hr23]. split.
  - intros t1 H1. destruct (Ha12 _ H1) as (t2 & H2 & Hsub12).
    destruct (Ha23 _ H2) as (t3 & H3 & Hsub23).
    exists t3. split; [done|]. by trans t2.
  - intros r1 H1. destruct (Hr12 _ H1) as (r2 & H2 & Hsub12).
    destruct (Hr23 _ H2) as (r3 & H3 & Hsub23).
    exists r3. split; [done|]. by trans r2.
Qed.

Lemma grows_with_schema db : grows db (with_schema db).
Proof.
  split; intros x Hx; exists x;
    unfold with_schema, create_registrations, create_activities;
    cbn [activities registrations]; by rewrite Hx.
Qed.

Lemma with_schema_db_of db : ∃ s, with_schema db = db_of s.
Proof.
  exists {| activity_rows := default ∅ (activities db);
            registration_rows := default ∅ (registrations db) |}.
  reflexivity.
Qed.

Lemma with_schema_id (s : store) : with_schema (db_of s) = db_of s.
Proof. reflexivity. Qed.

Lemma grows_db_of (s : store) db' :
  grows (db_of s) db' →
  ∃ s', db' = db_of s' ∧ activity_rows s ⊆ activity_rows s' ∧
        registration_rows s ⊆ registration_rows s'.
Proof.
  intros [Ha Hr].
  destruct (Ha _ eq_refl) as (t' & Ht' & Hsubt).
  destruct (Hr _ eq_refl) as (r' & Hr' & Hsubr).
  exists {| activity_rows := t'; registration_rows := r' |}.
  destruct db' as [a' g']. cbn in Ht', Hr'. by subst.
Qed.

Lemma append_only_mret {A} (a : A) : append_only (mret a).
Proof. intros c. split; [done|]. intros _ _. apply grows_refl. Qed.

Lemma append_only_bind {A B} (m : sql A) (k : A → sql B) :
  append_only m → (∀ a, append_only (k a)) → append_only (m ≫= k).
Proof.
  intros Hm Hk c. unfold mbind, sql_bind.
  destruct (Hm c) as [Hdisk Hgrows].
  destruct (m c) as [[a|x] c1]; cbn [fst snd] in *; [|done].
  destruct (Hk a c1) as [Hdisk' Hgrows']. split; [congruence|].
  intros b Hb. eapply grows_trans; [by apply (Hgrows a)|by apply (Hgrows' b)].
Qed.

Lemma append_only_for_each {A} (xs : list A) (body : A → sql unit) :
  (∀ x, append_only (body x)) → append_only (for_each xs body).
Proof.
  intros Hbody. induction xs as [|x xs IH]; cbn [for_each].
  - apply append_only_mret.
  - apply append_only_bind; [apply Hbody|by intros _].
Qed.

Lemma append_only_query {A} (q : database → outcome A) :
  append_only (execute_query q).
Proof. intros c. split; [done|]. intros _ _. apply grows_refl. Qed.

Lemma append_only_insert_activity name row :
  append_only (execute_update (insert_activity name row)).
Proof.
  intros c. unfold execute_update, insert_activity.
  destruct (activities (current c)) as [t|] eqn:Ht; [|done].
  destruct (negb _); [done|].
  destruct (decide (is_Some (t !! name))) as [|Hnew]; [done|].
  split; [done|]. intros _ _. cbn [fst snd current txn default from_option].
  split; cbn [activities registrations].
  - intros t0 Ht0. rewrite Ht in Ht0. injection Ht0 as <-.
    exists (<[name:=row]> t). split; [done|].
    apply insert_subseteq. by apply eq_None_not_Some.
  - intros r Hr. by exists r.
Qed.

Lemma append_only_insert_registration name email :
  append_only (execute_update (insert_registration name email)).
Proof.
  intros c. unfold execute_update, insert_registration.
  destruct (registrations (current c)) as [regs|] eqn:Hregs; [|done].
  destruct (activities (current c)) as [t|] eqn:Ht; [|done].
  destruct (decide ((name, email) ∈ regs)); [done|].
  destruct (decide (is_Some (t !! name))); [|done].
  split; [done|]. intros _ _. cbn [fst snd current txn default from_option].
  split; cbn [activities registrations].
  - intros t0 Ht0. rewrite Ht in Ht0. injection Ht0 as <-. by exists t.
  - intros r Hr. rewrite Hregs in Hr. injection Hr as <-.
    eexists. split; [done|]. apply union_subseteq_r.
Qed.

Lemma append_only_seed_activity x : append_only (seed_activity x).
Proof.
  destruct x as [name details]. unfold seed_activity.
  apply append_only_bind; [apply append_only_insert_activity|]. intros _.
  apply append_only_for_each. intros email.
  apply append_only_bind; [apply append_only_insert_registration|]. intros _.
  apply append_only_mret.
Qed.

Lemma append_only_seed_if_empty : append_only seed_if_empty.
Proof.
  unfold seed_if_empty. apply append_only_bind; [apply append_only_query|].
  intros count. destruct (count =? 0)%Z; [|apply append_only_mret].
  apply append_only_for_each, append_only_seed_activity.
Qed.

Lemma append_only_run {A} (m : sql A) c a c' :
  append_only m → m c = (Return a, c') → grows (current c) (current c').
Proof.
  intros Hm Hrun. destruct (Hm c) as [_ Hg]. rewrite Hrun in Hg.
  by apply (Hg a).
Qed.

Lemma with_connection_append_only {A} (m : sql A) db :
  append_only m →
  grows db (with_connection m db).2 ∧
  ∀ x, (with_connection m db).1 = Raise x → (with_connection m db).2 = db.
Proof.
  intros Hm. unfold with_connection.
  destruct (Hm {| disk := db; txn := None |}) as [Hdisk Hgrows].
  destruct (m _) as [[a|x] c']; cbn [fst snd] in *.
  - split; [by apply (Hgrows a)|done].
  - split; [|done]. rewrite Hdisk. apply grows_refl.
Qed.

Lemma init_db_with_schema db :
  init_db db = with_connection seed_if_empty (with_schema db).
Proof. reflexivity. Qed.

End append_only.

(** ** The store initializer on any database *)

Section init_db_any.
Implicit Types (db : database) (c : connection).

Lemma with_schema_idemp db : with_schema (with_schema db) = with_schema db.
Proof. by destruct db as [[t|] [r|]]. Qed.

Lemma bind_return {A B} (m : sql A) (k : A → sql B) c b c' :
  (m ≫= k) c = (Return b, c') →
  ∃ a c1, m c = (Return a, c1) ∧ k a c1 = (Return b, c').
Proof.
  unfold mbind, sql_bind. destruct (m c) as [[a|x] c1]; [|done].
  intros Hk. by exists a, c1.
Qed.

Lemma for_each_cons_return {A} (x : A) xs (body : A → sql unit) c c' :
  for_each (x :: xs) body c = (Return (), c') →
  ∃ c1, body x c = (Return (), c1) ∧ for_each xs body c1 = (Return (), c').
Proof.
  cbn [for_each]. intros Hrun.
  apply bind_return in Hrun as ([] & c1 & Hfirst & Hrest). by exists c1.
Qed.

Lemma insert_activity_return name row c n c' :
  execute_update (insert_activity name row) c = (Return n, c') →
  ∃ t', activities (current c') = Some t' ∧ t' !! name = Some row.
Proof.
  unfold execute_update, insert_activity.
  destruct (activities (current c)) as [t|]; [|done].
  destruct (negb _); [done|]. destruct (decide _); [done|].
  intros [= _ <-]. exists (<[name:=row]> t). split; [done|].
  apply lookup_insert_eq.
Qed.

Lemma seed_if_empty_return c c' :
  seed_if_empty c = (Return (), c') →
  ∃ t', activities (current c') = Some t' ∧ t' ≠ ∅.
Proof.
  unfold seed_if_empty. intros Hrun.
  apply bind_return in Hrun as (count & c0 & Hcount & Hrun).
  unfold execute_query, count_activities in Hcount.
  destruct (activities (current c)) as [t|] eqn:Ht; [|done].
  injection Hcount as <- <-.
  destruct (Z.eqb_spec (Z.of_nat (size t)) 0) as [_|Hsize].
  - unfold INITIAL_ACTIVITIES in Hrun.
    apply for_each_cons_return in Hrun as (c1 & Hfirst & Hrest).
    unfold seed_activity in Hfirst.
    apply bind_return in Hfirst as (n & c2 & Hins & Hparts).
    apply insert_activity_return in Hins as (t2 & Ht2 & Hchess).
    assert (grows (current c2) (current c')) as [Hgrows _].
    { apply (grows_trans _ (current c1)).
      - eapply append_only_run; [|exact Hparts].
        apply append_only_for_each. intros email.
        apply append_only_bind; [apply append_only_insert_registration|].
        intros _. apply append_only_mret.
      - eapply append_only_run; [|exact Hrest].
        apply append_only_for_each, append_only_seed_activity. }
    destruct (Hgrows _ Ht2) as (t' & Ht' & Hsub).
    exists t'. split; [done|]. intros ->.
    eapply lookup_weaken in Hchess; [|done]. by rewrite lookup_empty in Hchess.
  - injection Hrun as <-. exists t. split; [done|].
    intros ->. by rewrite map_size_empty in Hsize.
Qed.

End init_db_any.

(** X1: whatever database [init_db] runs on, and whether it returns or
    raises, both tables exist afterwards. *)
Theorem init_db_creates_schema (db : database) :
  ∃ s, (init_db db).2 = db_of s.
Proof.
  rewrite init_db_with_schema.
  destruct (with_connection_append_only seed_if_empty (with_schema db)
              append_only_seed_if_empty) as [Hgrows _].
  destruct (with_schema_db_of db) as [s0 Hs0]. rewrite Hs0 in Hgrows |- *.
  apply grows_db_of in Hgrows as (s' & Hs' & _). by exists s'.
Qed.

(** X2: [init_db] never removes or alters a row: every activity row and
    every registration row of the database it runs on is in the database it
    leaves. *)
Theorem init_db_keeps_rows (db : database) :
  (∀ t name row, activities db = Some t → t !! name = Some row →
     ∃ t', activities (init_db db).2 = Some t' ∧ t' !! name = Some row) ∧
  (∀ regs r, registrations db = Some regs → r ∈ regs →
     ∃ regs', registrations (init_db db).2 = Some regs' ∧ r ∈ regs').
Proof.
  assert (grows db (init_db db).2) as [Hacts Hregs].
  { rewrite init_db_with_schema.
    eapply grows_trans; [apply grows_with_schema|].
    apply with_connection_append_only, append_only_seed_if_empty. }
  split.
  - intros t name row Ht Hrow. destruct (Hacts _ Ht) as (t' & Ht' & Hsub).
    exists t'. split; [done|]. by eapply lookup_weaken.
  - intros regs r Hr Hin. destruct (Hregs _ Hr) as (regs' & Hr' & Hsub).
    exists regs'. split; [done|]. by apply Hsub.
Qed.

Lemma init_db_keeps_rows_witness :
  (init_db (db_of orphan_store)).1 = Return () ∧
  ∃ regs', registrations (init_db (db_of orphan_store)).2 = Some regs' ∧
           ("Ghost Club", "b@mergington.edu") ∈ regs'.
Proof.
  split; [vm_compute; reflexivity|].
  apply (proj2 (init_db_keeps_rows (db_of orphan_store))
           (registration_rows orphan_store)).
  - reflexivity.
  - vm_compute. reflexivity.
Defined.

(** X3: when [init_db] raises, it has added no row: the database is the one
    it ran on with the missing tables created empty, hence the very same
    database when both tables existed. *)
Theorem init_db_failure_adds_no_row (db db' : database) (x : exn) :
  init_db db = (Raise x, db') →
  db' = create_registrations (create_activities db) ∧
  ∀ s, db = db_of s → db' = db.
Proof.
  intros Hrun.
  assert (db' = with_schema db) as ->.
  { rewrite init_db_with_schema in Hrun.
    destruct (with_connection_append_only seed_if_empty (with_schema db)
                append_only_seed_if_empty) as [_ Hraise].
    rewrite Hrun in Hraise. by apply (Hraise x). }
  split; [done|]. by intros s ->.
Qed.

Lemma init_db_failure_adds_no_row_witness :
  init_db (db_of clash_store)
    = (Raise (IntegrityError
         "UNIQUE constraint failed: registrations.activity_name, registrations.email"),
       db_of clash_store).
Proof.
  set (r := init_db (db_of clash_store)).
  assert (r = (Raise (IntegrityError
         "UNIQUE constraint failed: registrations.activity_name, registrations.email"),
               r.2)) as Hr by (vm_compute; reflexivity).
  destruct (init_db_failure_adds_no_row (db_of clash_store) r.2 _ Hr)
    as [_ Hsame].
  rewrite Hr. by rewrite (Hsame clash_store).
Defined.

(** X4: on every database, running [init_db] a second time gives the outcome
    of the first run and leaves the database as the first run left it. *)
Theorem init_db_twice (db : database) :
  init_db (init_db db).2 = init_db db.
Proof.
  rewrite (init_db_with_schema db). unfold with_connection.
  destruct (seed_if_empty {| disk := with_schema db; txn := None |})
    as [[[]|x] c'] eqn:Hrun; cbn [snd].
  - destruct (seed_if_empty_return _ _ Hrun) as (t' & Ht' & Hne).
    pose proof (append_only_run _ _ _ _ append_only_seed_if_empty Hrun)
      as Hgrows. cbn [current txn disk default from_option] in Hgrows.
    destruct (with_schema_db_of db) as [s0 Hs0]. rewrite Hs0 in Hgrows.
    apply grows_db_of in Hgrows as (s' & Hs' & _).
    rewrite Hs' in Ht' |- *. injection Ht' as <-. by apply init_db_seeded.
  - destruct (append_only_seed_if_empty {| disk := with_schema db; txn := None |})
      as [Hdisk _]. rewrite Hrun in Hdisk. cbn [snd disk] in Hdisk.
    rewrite Hdisk, init_db_with_schema, with_schema_idemp.
    unfold with_connection. by rewrite Hrun, Hdisk.
Qed.

(** ** How the registration requests compose *)

Section composition.
Implicit Types (s : store) (db : database) (A B e f : string).

Lemma without_with_registration s A e :
  (A, e) ∉ registration_rows s →
  without_registration (with_registration s A e) A e = s.
Proof.
  intros Hnew. destruct s as [acts regs].
  unfold without_registration, with_registration; cbn in *. f_equal.
  apply set_eq. intros r.
  rewrite elem_of_difference, elem_of_union, elem_of_singleton. split.
  - by intros [[->|Hr] Hne].
  - intros Hr. split; [by right|]. by intros ->.
Qed.

Lemma with_without_registration s A e :
  (A, e) ∈ registration_rows s →
  with_registration (without_registration s A e) A e = s.
Proof.
  intros Hin. destruct s as [acts regs].
  unfold without_registration, with_registration; cbn in *. f_equal.
  apply set_eq. intros r.
  rewrite elem_of_union, elem_of_difference, elem_of_singleton. split.
  - by intros [->|[Hr _]].
  - intros Hr. destruct (decide (r = (A, e))); [by left|by right].
Qed.

End composition.

(** X5: an unregister that follows a sign-up which returned, for the same
    activity and e-mail, returns and puts the database back as it was before
    the sign-up. *)
Theorem signup_then_unregister_restores
    (db db' : database) (A e : string) (body : json_object) :
  signup_for_activity A e db = (Return body, db') →
  unregister_from_activity A e db'
    = (Return [("message", "Unregistered " +:+ e +:+ " from " +:+ A)], db).
Proof.
  intros Hrun.
  apply signup_for_activity_return in Hrun as (s & -> & [row Hrow] & Hnew & _ & ->).
  rewrite unregister_from_activity_eq.
  cbn [with_registration activity_rows registration_rows]. rewrite Hrow.
  rewrite decide_True by (apply elem_of_union_l; by apply elem_of_singleton).
  change (without_registration _ A e)
    with (without_registration (with_registration s A e) A e).
  by rewrite without_with_registration.
Qed.

Lemma signup_then_unregister_restores_witness :
  unregister_from_activity "Chess Club" "new@mergington.edu"
    (signup_for_activity "Chess Club" "new@mergington.edu" (db_of small_store)).2
  = (Return [("message", "Unregistered new@mergington.edu from Chess Club")],
     db_of small_store).
Proof.
  apply (signup_then_unregister_restores (db_of small_store) _
           "Chess Club" "new@mergington.edu"
           [("message", "Signed up new@mergington.edu for Chess Club")]).
  vm_compute. reflexivity.
Defined.

(** X6: a sign-up that follows an unregister which returned, for the same
    activity and e-mail, returns and puts the database back as it was before
    the unregister. *)
Theorem unregister_then_signup_restores
    (db db' : database) (A e : string) (body : json_object) :
  unregister_from_activity A e db = (Return body, db') →
  signup_for_activity A e db'
    = (Return [("message", "Signed up " +:+ e +:+ " for " +:+ A)], db).
Proof.
  intros Hrun.
  apply unregister_from_activity_return in Hrun
    as (s & -> & [row Hrow] & Hin & _ & ->).
  rewrite signup_for_activity_eq.
  cbn [without_registration activity_rows registration_rows]. rewrite Hrow.
  rewrite decide_False.
  - change (with_registration _ A e)
      with (with_registration (without_registration s A e) A e).
    by rewrite with_without_registration.
  - rewrite elem_of_difference, elem_of_singleton. by intros [_ []].
Qed.

Lemma unregister_then_signup_restores_witness :
  signup_for_activity "Chess Club" "michael@mergington.edu"
    (unregister_from_activity "Chess Club" "michael@mergington.edu"
       (db_of small_store)).2
  = (Return [("message", "Signed up michael@mergington.edu for Chess Club")],
     db_of small_store).
Proof.
  apply (unregister_then_signup_restores (db_of small_store) _
           "Chess Club" "michael@mergington.edu"
           [("message", "Unregistered michael@mergington.edu from Chess Club")]).
  vm_compute. reflexivity.
Defined.

(** X7: the same unregister repeated after one that returned raises HTTP 400
    "Student is not signed up for this activity" and changes nothing. *)
Theorem unregister_twice
    (db db' : database) (A e : string) (body : json_object) :
  unregister_from_activity A e db = (Return body, db') →
  unregister_from_activity A e db'
    = (Raise (HTTPException 400 "Student is not signed up for this activity"),
       db').
Proof.
  intros Hrun.
  apply unregister_from_activity_return in Hrun
    as (s & -> & [row Hrow] & Hin & _ & ->).
  rewrite unregister_from_activity_eq.
  cbn [without_registration activity_rows registration_rows]. rewrite Hrow.
  rewrite decide_False; [done|].
  rewrite elem_of_difference, elem_of_singleton. by intros [_ []].
Qed.

Lemma unregister_twice_witness :
  unregister_from_activity "Chess Club" "michael@mergington.edu"
    (unregister_from_activity "Chess Club" "michael@mergington.edu"
       (db_of small_store)).2
  = (Raise (HTTPException 400 "Student is not signed up for this activity"),
     (unregister_from_activity "Chess Club" "michael@mergington.edu"
        (db_of small_store)).2).
Proof.
  apply (unregister_twice (db_of small_store) _
           "Chess Club" "michael@mergington.edu"
           [("message", "Unregistered michael@mergington.edu from Chess Club")]).
  vm_compute. reflexivity.
Defined.


(** X9: sign-ups of two different (activity, e-mail) pairs do not interfere:
    each has the outcome it would have had alone, and the database after
    both is the same in either order. *)
Theorem signups_commute (s : store) (A e B f : string) :
  (A, e) ≠ (B, f) →
  (signup_for_activity B f (signup_for_activity A e (db_of s)).2).1
    = (signup_for_activity B f (db_of s)).1 ∧
  (signup_for_activity A e (signup_for_activity B f (db_of s)).2).1
    = (signup_for_activity A e (db_of s)).1 ∧
  (signup_for_activity B f (signup_for_activity A e (db_of s)).2).2
    = (signup_for_activity A e (signup_for_activity B f (db_of s)).2).2.
Proof.
  intros Hne.
  assert (∀ C g D h, (C, g) ≠ (D, h) →
            (D, h) ∈ registration_rows (with_registration s C g)
            ↔ (D, h) ∈ registration_rows s) as Hother.
  { intros C g D h Hdiff. cbn [with_registration registration_rows].
    rewrite elem_of_union, elem_of_singleton. split; [|by right].
    by intros [?|?]. }
  assert (with_registration (with_registration s A e) B f
            = with_registration (with_registration s B f) A e) as Hswap.
  { unfold with_registration; cbn [activity_rows registration_rows]. f_equal.
    apply set_eq. intros r. rewrite !elem_of_union. tauto. }
  rewrite (signup_for_activity_eq s A e), (signup_for_activity_eq s B f).
  destruct (activity_rows s !! A) as [rowA|] eqn:HA;
    destruct (activity_rows s !! B) as [rowB|] eqn:HB;
    repeat case_decide; cbn [fst snd];
    rewrite ?signup_for_activity_eq;
    cbn [with_registration activity_rows]; rewrite ?HA, ?HB;
    repeat case_decide; cbn [fst snd]; try done;
    try (exfalso; match goal with
         | H : _ ∈ registration_rows (with_registration _ _ _) |- _ =>
             apply Hother in H; [done|congruence]
         | H : _ ∉ registration_rows (with_registration _ _ _) |- _ =>
             apply H, Hother; [congruence|done]
         end).
  by rewrite Hswap.
Qed.

Lemma signups_commute_witness :
  (signup_for_activity "Solo" "b@mergington.edu"
     (signup_for_activity "Chess Club" "new@mergington.edu"
        (db_of small_store)).2).2
  = (signup_for_activity "Chess Club" "new@mergington.edu"
       (signup_for_activity "Solo" "b@mergington.edu" (db_of small_store)).2).2.
Proof.
  apply (signups_commute small_store "Chess Club" "new@mergington.edu"
           "Solo" "b@mergington.edu").
  discriminate.
Defined.

(** ** What a request leaves alone *)

Section frame.
Implicit Types (s : store) (db : database) (A B e : string).

Lemma participants_of_ext s s' B :
  (∀ e, (B, e) ∈ registration_rows s' ↔ (B, e) ∈ registration_rows s) →
  participants_of s' B = participants_of s B.
Proof.
  intros Hsame. apply (StronglySorted_unique text_le).
  - apply participants_of_sorted.
  - apply participants_of_sorted.
  - apply NoDup_Permutation; [apply participants_of_NoDup..|].
    intros e. by rewrite !elem_of_participants_of.
Qed.

Lemma dict_get_None {V} k (d : list (string * V)) :
  k ∉ d.*1 → dict_get k d = None.
Proof.
  induction d as [|[k' v] d IH]; [done|].
  rewrite fmap_cons, not_elem_of_cons. cbn [fst dict_get]. intros [Hne Hk].
  rewrite decide_False by done. by apply IH.
Qed.

Lemma elem_of_listing_keys s B :
  B ∈ (listing s).*1 ↔ is_Some (activity_rows s !! B).
Proof.
  rewrite list_elem_of_fmap. split.
  - intros ([B' d] & -> & Hin).
    apply elem_of_listing in Hin as (row & Hrow & _). by exists row.
  - intros [row Hrow]. eexists (B, _). split; [done|].
    apply elem_of_listing. by exists row.
Qed.

Lemma dict_get_listing_eq s B :
  dict_get B (listing s)
    = (λ row, (details_of s (B, row)).2) <$> activity_rows s !! B.
Proof.
  destruct (activity_rows s !! B) as [row|] eqn:Hrow.
  - by apply dict_get_listing.
  - apply dict_get_None. rewrite elem_of_listing_keys, Hrow.
    by intros [? ?].
Qed.

Lemma listing_frame s s' A :
  activity_rows s' = activity_rows s →
  (∀ B e, B ≠ A →
     (B, e) ∈ registration_rows s' ↔ (B, e) ∈ registration_rows s) →
  (listing s').*1 = (listing s).*1 ∧
  (∀ B, B ≠ A → dict_get B (listing s') = dict_get B (listing s)) ∧
  (∀ B, (description <$> dict_get B (listing s'),
         schedule <$> dict_get B (listing s'),
         max_participants <$> dict_get B (listing s'))
        = (description <$> dict_get B (listing s),
           schedule <$> dict_get B (listing s),
           max_participants <$> dict_get B (listing s))).
Proof.
  intros Hacts Hregs. split; [|split].
  - by rewrite !listing_keys, Hacts.
  - intros B HB. rewrite !dict_get_listing_eq, Hacts.
    destruct (activity_rows s !! B) as [row|]; [|done].
    cbn [fmap option_fmap option_map details_of fst snd]. do 2 f_equal.
    apply participants_of_ext. intros e. by apply Hregs.
  - intros B. rewrite !dict_get_listing_eq, Hacts.
    by destruct (activity_rows s !! B).
Qed.

End frame.

(** X10: a sign-up or an unregister for activity [A] that returns leaves
    the rest of the listing alone: [fetch_activities] has the same keys in
    the same order before and after, the entry of every other activity is
    the same, and every entry, that of [A] too, keeps its description,
    schedule and max_participants. *)
Theorem request_leaves_other_activities
    (db db' : database) (A e : string) (body : json_object) :
  signup_for_activity A e db = (Return body, db') ∨
  unregister_from_activity A e db = (Return body, db') →
  ∃ dict dict',
    fetch_activities db = (Return dict, db) ∧
    fetch_activities db' = (Return dict', db') ∧
    dict'.*1 = dict.*1 ∧
    (∀ B, B ≠ A → dict_get B dict' = dict_get B dict) ∧
    (∀ B, (description <$> dict_get B dict',
           schedule <$> dict_get B dict',
           max_participants <$> dict_get B dict')
          = (description <$> dict_get B dict,
             schedule <$> dict_get B dict,
             max_participants <$> dict_get B dict)).
Proof.
  intros [Hrun | Hrun].
  - apply signup_for_activity_return in Hrun as (s & -> & _ & _ & _ & ->).
    exists (listing s), (listing (with_registration s A e)).
    split; [apply fetch_activities_eq|]. split; [apply fetch_activities_eq|].
    apply listing_frame; [done|]. intros B e' HB.
    cbn [with_registration registration_rows].
    rewrite elem_of_union, elem_of_singleton. split; [|by right].
    intros [[= -> _] | Hin]; done.
  - apply unregister_from_activity_return in Hrun as (s & -> & _ & _ & _ & ->).
    exists (listing s), (listing (without_registration s A e)).
    split; [apply fetch_activities_eq|]. split; [apply fetch_activities_eq|].
    apply listing_frame; [done|]. intros B e' HB.
    cbn [without_registration registration_rows].
    rewrite elem_of_difference, elem_of_singleton. split; [by intros [? _]|].
    intros Hin. split; [done|]. by intros [= -> _].
Qed.

Lemma request_leaves_other_activities_witness :
  ∃ dict dict',
    fetch_activities (db_of small_store) = (Return dict, db_of small_store) ∧
    (fetch_activities (signup_for_activity "Chess Club" "new@mergington.edu"
                         (db_of small_store)).2).1 = Return dict' ∧
    dict_get "Solo" dict' = dict_get "Solo" dict.
Proof.
  set (r := signup_for_activity "Chess Club" "new@mergington.edu"
              (db_of small_store)).
  assert (r = (Return [("message", "Signed up new@mergington.edu for Chess Club")],
               r.2)) as Hr by (vm_compute; reflexivity).
  destruct (request_leaves_other_activities (db_of small_store) r.2
              "Chess Club" "new@mergington.edu"
              [("message", "Signed up new@mergington.edu for Chess Club")]
              (or_introl Hr))
    as (dict & dict' & Hbefore & Hafter & _ & Hother & _).
  exists dict, dict'. split; [exact Hbefore|]. split.
  - by rewrite Hafter.
  - apply Hother. discriminate.
Defined.

(** ** The constraints of the schema *)

Section constraints.
Implicit Types (s : store) (db : database) (A e : string).

Lemma store_ok_with_registration s A e :
  store_ok s → is_Some (activity_rows s !! A) →
  store_ok (with_registration s A e).
Proof.
  intros [Hcheck Hfk] HA. split; [done|].
  cbn [with_registration activity_rows registration_rows].
  intros r. rewrite elem_of_union, elem_of_singleton.
  intros [-> | Hr]; [done|]. by apply Hfk.
Qed.

Lemma store_ok_without_registration s A e :
  store_ok s → store_ok (without_registration s A e).
Proof.
  intros [Hcheck Hfk]. split; [done|].
  cbn [without_registration activity_rows registration_rows].
  intros r. rewrite elem_of_difference. intros [Hr _]. by apply Hfk.
Qed.

Lemma store_ok_seed_store : store_ok seed_store.
Proof.
  split.
  - apply (bool_decide_unpack _). vm_compute. exact I.
  - apply (bool_decide_unpack _). vm_compute. exact I.
Qed.

Lemma store_ok_no_activity s :
  store_ok s → activity_rows s = ∅ → s = empty_store.
Proof.
  intros [_ Hfk] Hempty. destruct s as [acts regs]. cbn in *. subst acts.
  unfold empty_store. f_equal. apply set_eq. intros r. split.
  - intros Hr. destruct (Hfk r Hr) as [row Hrow].
    by rewrite lookup_empty in Hrow.
  - intros Hr. by apply not_elem_of_empty in Hr.
Qed.

Lemma seed_store_lookup name :
  activity_rows seed_store !! name
    = row_of <$> dict_get name INITIAL_ACTIVITIES.
Proof.
  unfold seed_store; cbn [activity_rows].
  induction INITIAL_ACTIVITIES as [|[k d] l IH]; [done|].
  cbn [fmap list_fmap prod_map fst snd id list_to_map foldr dict_get].
  destruct (decide (k = name)) as [->|Hne].
  - by rewrite lookup_insert_eq.
  - by rewrite lookup_insert_ne.
Qed.

End constraints.

(** X11: the handlers keep the constraints of the schema: from a store where
    every activity has [max_participants > 0] and every registration names an
    activity that exists, a sign-up, an unregister or a run of [init_db]
    leads to such a store again, whether the call returns or raises. *)
Theorem handlers_keep_constraints (s : store) (A e : string) :
  store_ok s →
  (∃ s', (signup_for_activity A e (db_of s)).2 = db_of s' ∧ store_ok s') ∧
  (∃ s', (unregister_from_activity A e (db_of s)).2 = db_of s' ∧ store_ok s') ∧
  (∃ s', (init_db (db_of s)).2 = db_of s' ∧ store_ok s').
Proof.
  intros Hok. split; [|split].
  - rewrite signup_for_activity_eq.
    destruct (activity_rows s !! A) as [row|] eqn:Hrow; [|by exists s].
    case_decide; [by exists s|].
    exists (with_registration s A e). split; [done|].
    apply store_ok_with_registration; [done|by exists row].
  - rewrite unregister_from_activity_eq.
    destruct (activity_rows s !! A) as [row|] eqn:Hrow; [|by exists s].
    case_decide; [|by exists s].
    exists (without_registration s A e). split; [done|].
    by apply store_ok_without_registration.
  - destruct (decide (activity_rows s = ∅)) as [Hempty|Hne].
    + rewrite (store_ok_no_activity s Hok Hempty), init_db_empty.
      exists seed_store. split; [done|apply store_ok_seed_store].
    + rewrite init_db_seeded by done. by exists s.
Qed.

Lemma handlers_keep_constraints_witness :
  ∃ s', (signup_for_activity "Chess Club" "new@mergington.edu"
           (db_of seed_store)).2 = db_of s' ∧ store_ok s'.
Proof.
  apply (handlers_keep_constraints seed_store "Chess Club" "new@mergington.edu").
  split.
  - apply (bool_decide_unpack _). vm_compute. exact I.
  - apply (bool_decide_unpack _). vm_compute. exact I.
Defined.

(** X12: in every database the application reaches from a fresh database
    file, by its startup and any sequence of requests and restarts, both
    tables exist, the activities table holds exactly the rows of
    [INITIAL_ACTIVITIES], and every registration names one of these
    activities. *)
Theorem reachable_invariant (db : database) :
  reachable db →
  ∃ s, db = db_of s ∧
       (∀ name, activity_rows s !! name
                  = row_of <$> dict_get name INITIAL_ACTIVITIES) ∧
       (∀ A e, (A, e) ∈ registration_rows s → A ∈ INITIAL_ACTIVITIES.*1).
Proof.
  intros Hreach.
  assert (∃ s, db = db_of s ∧ activity_rows s = activity_rows seed_store ∧
               store_ok s) as (s & -> & Hacts & Hok).
  { induction Hreach as [|db _ (s & -> & Hacts & Hok)
                          |db _ (s & -> & Hacts & Hok)
                          |db A e _ (s & -> & Hacts & Hok)
                          |db A e _ (s & -> & Hacts & Hok)].
    - rewrite init_db_fresh. exists seed_store.
      split; [done|]. split; [done|]. apply store_ok_seed_store.
    - rewrite init_db_seeded; [by exists s|].
      rewrite Hacts. apply (bool_decide_unpack _). vm_compute. exact I.
    - unfold get_activities. rewrite fetch_activities_eq. by exists s.
    - rewrite signup_for_activity_eq.
      destruct (activity_rows s !! A) as [row|] eqn:Hrow; [|by exists s].
      case_decide; [by exists s|].
      exists (with_registration s A e). split; [done|]. split; [done|].
      apply store_ok_with_registration; [done|by exists row].
    - rewrite unregister_from_activity_eq.
      destruct (activity_rows s !! A) as [row|] eqn:Hrow; [|by exists s].
      case_decide; [|by exists s].
      exists (without_registration s A e). split; [done|]. split; [done|].
      by apply store_ok_without_registration. }
  exists s. split; [done|]. split.
  - intros name. rewrite Hacts. apply seed_store_lookup.
  - intros A e Hin. destruct Hok as [_ Hfk].
    destruct (Hfk _ Hin) as [row Hrow]. cbn [fst] in Hrow.
    rewrite Hacts, seed_store_lookup in Hrow.
    destruct (dict_get A INITIAL_ACTIVITIES) as [d|] eqn:Hd; [|done].
    clear -Hd. induction INITIAL_ACTIVITIES as [|[k v] l IH]; [done|].
    cbn [dict_get] in Hd. rewrite fmap_cons. cbn [fst].
    destruct (decide (k = A)) as [->|Hne]; [by left|].
    right. by apply IH.
Qed.

Lemma reachable_invariant_witness :
  ∃ s, (signup_for_activity "Chess Club" "new@mergington.edu"
          (init_db fresh_db).2).2 = db_of s ∧
       (∀ name, activity_rows s !! name
                  = row_of <$> dict_get name INITIAL_ACTIVITIES) ∧
       (∀ A e, (A, e) ∈ registration_rows s → A ∈ INITIAL_ACTIVITIES.*1).
Proof.
  apply (reachable_invariant
           (signup_for_activity "Chess Club" "new@mergington.edu"
              (init_db fresh_db).2).2).
  apply reach_signup, reach_startup.
Defined.

(** ** Reading, and running without the tables *)

Section read_only.
Implicit Types (db : database) (c : connection).

Lemma read_only_mret {A} (a : A) : read_only (mret a).
Proof. by intros c. Qed.

Lemma read_only_query {A} (q : database → outcome A) :
  read_only (execute_query q).
Proof. by intros c. Qed.

Lemma read_only_bind {A B} (m : sql A) (k : A → sql B) :
  read_only m → (∀ a, read_only (k a)) → read_only (m ≫= k).
Proof.
  intros Hm Hk c. unfold mbind, sql_bind. specialize (Hm c).
  destruct (m c) as [[a|x] c1]; cbn [snd] in *; subst c1; [|done].
  apply Hk.
Qed.

Lemma read_only_for_fold {A B} (xs : list A) (acc : B) (body : B → A → sql B) :
  (∀ acc x, read_only (body acc x)) → read_only (for_fold xs acc body).
Proof.
  intros Hbody. revert acc. induction xs as [|x xs IH]; intros acc.
  - apply read_only_mret.
  - cbn [for_fold]. apply read_only_bind; [apply Hbody|]. intros acc'. apply IH.
Qed.

Lemma with_connection_read_only {A} (m : sql A) db :
  read_only m → (with_connection m db).2 = db.
Proof.
  intros Hm. unfold with_connection. specialize (Hm {| disk := db; txn := None |}).
  destruct (m _) as [[a|x] c']; cbn [snd] in *; by subst c'.
Qed.

End read_only.

(** X13: [fetch_activities] only reads: whatever the database, with or
    without its tables, and whether the call returns or raises, the database
    afterwards is the database before. *)
Theorem fetch_activities_read_only (db : database) :
  (fetch_activities db).2 = db.
Proof.
  apply with_connection_read_only.
  apply read_only_bind; [apply read_only_query|]. intros rows.
  apply read_only_for_fold. intros acc row.
  apply read_only_bind; [apply read_only_query|]. intros emails.
  apply read_only_mret.
Qed.

(** X14: while table [activities] does not exist (before [init_db] ran),
    the three handlers raise sqlite3's OperationalError "no such table:
    activities", which the HTTP layer answers with 500, and the database is
    left as it was. *)
Theorem handlers_without_tables (db : database) (A e : string) :
  activities db = None →
  signup_for_activity A e db
    = (Raise (OperationalError "no such table: activities"), db) ∧
  unregister_from_activity A e db
    = (Raise (OperationalError "no such table: activities"), db) ∧
  fetch_activities db
    = (Raise (OperationalError "no such table: activities"), db) ∧
  (respond (signup_for_activity A e db).1).1 = 500%Z ∧
  (respond (unregister_from_activity A e db).1).1 = 500%Z ∧
  (respond (fetch_activities db).1).1 = 500%Z.
Proof.
  intros Hnone.
  assert (signup_for_activity A e db
            = (Raise (OperationalError "no such table: activities"), db)) as Hs.
  { unfold signup_for_activity. run_sql. by rewrite Hnone. }
  assert (unregister_from_activity A e db
            = (Raise (OperationalError "no such table: activities"), db)) as Hu.
  { unfold unregister_from_activity. run_sql. by rewrite Hnone. }
  assert (fetch_activities db
            = (Raise (OperationalError "no such table: activities"), db)) as Hf.
  { unfold fetch_activities, select_activities. run_sql. by rewrite Hnone. }
  by rewrite Hs, Hu, Hf.
Qed.

Lemma handlers_without_tables_witness :
  signup_for_activity "Chess Club" "new@mergington.edu" fresh_db
    = (Raise (OperationalError "no such table: activities"), fresh_db) ∧
  fetch_activities fresh_db
    = (Raise (OperationalError "no such table: activities"), fresh_db).
Proof.
  destruct (handlers_without_tables fresh_db "Chess Club" "new@mergington.edu")
    as (Hs & _ & Hf & _).
  - reflexivity.
  - split; [exact Hs | exact Hf].
Defined.
